(** * Radar link-budget model: [radar_simconfig.py]

    A shallow embedding of the helper functions of [radar_simconfig.py]
    (two-way delay, decibel conversions, thermal noise power and the
    radar-equation SNR) together with the constants they read.

    Numbers.  The Python code computes with binary64 floats.  Here a
    finite Python number is a real number of [R]; rounding, overflow and
    underflow are not modelled.  What the code does outside the finite
    reals is modelled where the code can reach it with real inputs:
    - Python's [/] raises [ZeroDivisionError] on a zero divisor;
    - [np.log10] returns [-inf] at [0] and [nan] below [0] (numpy warns,
      it does not raise), so its result lives in [float64]. *)

From Stdlib Require Import Reals Lra Psatz.
From Stdlib Require Import ZArith List String Ascii.
Import ListNotations.

Local Open Scope R_scope.

(** ** Exceptions and the error monad *)

(** [ZeroDivisionError] is the one exception the arithmetic of the module
    can raise.  [InvalidInputError] is the error kind the specification
    names; no [raise] statement occurs in [radar_simconfig.py]. *)
Inductive py_exception : Set :=
| ZeroDivisionError
| InvalidInputError.

Inductive result (A : Type) : Type :=
| Ok (a : A)
| Raise (e : py_exception).

Arguments Ok {A} a.
Arguments Raise {A} e.

Definition bind {A B : Type} (m : result A) (k : A -> result B) : result B :=
  match m with
  | Ok a => k a
  | Raise e => Raise e
  end.

Notation "x <- m ;; k" := (bind m (fun x => k))
  (at level 61, m at next level, right associativity).

(** ** Values returned by numpy *)

Inductive float64 : Type :=
| Finite (r : R)
| PosInf
| NegInf
| NaN.

(** Python true division [x / y] on finite numbers. *)
Definition py_truediv (x y : R) : result R :=
  if Req_dec_T y 0 then Raise ZeroDivisionError else Ok (x / y).

(** Base-10 logarithm of a positive real. *)
Definition log10 (x : R) : R := ln x / ln 10.

(** [np.log10 x] on a finite [x]. *)
Definition np_log10 (x : R) : float64 :=
  match total_order_T 0 x with
  | inleft (left _) => Finite (log10 x)
  | inleft (right _) => NegInf
  | inright _ => NaN
  end.

(** [k * v] for a finite Python number [k] and a numpy scalar [v]. *)
Definition np_scale (k : R) (v : float64) : float64 :=
  match v with
  | Finite r => Finite (k * r)
  | NaN => NaN
  | PosInf =>
      match total_order_T 0 k with
      | inleft (left _) => PosInf
      | inleft (right _) => NaN
      | inright _ => NegInf
      end
  | NegInf =>
      match total_order_T 0 k with
      | inleft (left _) => NegInf
      | inleft (right _) => NaN
      | inright _ => PosInf
      end
  end.

(** ** Constants of the module *)

Definition SPEED_OF_LIGHT : R := 3e8.
Definition CARRIER_FREQUENCY : R := 10e9.
Definition PULSE_WIDTH : R := 1e-6.
Definition TRANSMIT_POWER : R := 1e3.
Definition NOISE_FIGURE_DB : R := 5.
Definition SYSTEM_TEMPERATURE : R := 290.
Definition BOLTZMANN_CONSTANT : R := 1.38e-23.

(** ** Helper functions *)

(** [return (2 * range_m) / SPEED_OF_LIGHT] *)
Definition range_to_time_delay (range_m : R) : result R :=
  py_truediv (2 * range_m) SPEED_OF_LIGHT.

(** [return (delay_s * SPEED_OF_LIGHT) / 2] *)
Definition time_delay_to_range (delay_s : R) : result R :=
  py_truediv (delay_s * SPEED_OF_LIGHT) 2.

(** [return 10 ** (db_value / 10)]; the base is the positive constant 10,
    so [**] is the real power [Rpower 10 e = exp (e * ln 10)]. *)
Definition db_to_linear (db_value : R) : result R :=
  e <- py_truediv db_value 10 ;;
  Ok (Rpower 10 e).

(** [return 10 * np.log10(linear_value)] *)
Definition linear_to_db (linear_value : R) : result float64 :=
  Ok (np_scale 10 (np_log10 linear_value)).

Definition calculate_thermal_noise_power : result R :=
  bandwidth <- py_truediv 1 PULSE_WIDTH ;;
  noise_figure_linear <- db_to_linear NOISE_FIGURE_DB ;;
  let noise_power :=
    BOLTZMANN_CONSTANT * SYSTEM_TEMPERATURE * bandwidth * noise_figure_linear in
  Ok noise_power.

Definition calculate_snr_from_range (target_range target_rcs : R)
  : result float64 :=
  wavelength <- py_truediv SPEED_OF_LIGHT CARRIER_FREQUENCY ;;
  noise_power <- calculate_thermal_noise_power ;;
  let numerator := TRANSMIT_POWER * wavelength ^ 2 * target_rcs in
  let denominator := (4 * PI) ^ 3 * target_range ^ 4 * noise_power in
  snr_linear <- py_truediv numerator denominator ;;
  snr_db <- linear_to_db snr_linear ;;
  Ok snr_db.

(** ** The closed forms the functions are compared with *)

(** [wavelength] as the local variable of [calculate_snr_from_range]
    holds it once the division has succeeded. *)
Definition wavelength_value : R := SPEED_OF_LIGHT / CARRIER_FREQUENCY.

(** [k * T * B * F] with [B = 1 / PULSE_WIDTH] and
    [F = 10 ^ (NOISE_FIGURE_DB / 10)]. *)
Definition noise_power_value : R :=
  BOLTZMANN_CONSTANT * SYSTEM_TEMPERATURE * (1 / PULSE_WIDTH)
  * Rpower 10 (NOISE_FIGURE_DB / 10).

(** The radar-equation ratio [(P_t * lambda^2 * sigma) / ((4 pi)^3 * R^4 * N)]. *)
Definition radar_ratio (target_range target_rcs : R) : R :=
  (TRANSMIT_POWER * wavelength_value ^ 2 * target_rcs)
  / ((4 * PI) ^ 3 * target_range ^ 4 * noise_power_value).

(** ** The other constants of the module *)

Definition PRF : R := 1000.
Definition PRI : R := 1 / PRF.
Definition SAMPLING_FREQUENCY : R := 100e9.
Definition DEFAULT_TARGET_RANGE : R := 5000.
Definition MAX_RANGE : R := 15000.
Definition MIN_RANGE : R := 100.
Definition DEFAULT_RCS : R := 10.

(** [np.arange(start, stop, step)] on integers with [step <> 0]:
    [ceil ((stop - start) / step)] values (none when that is negative),
    [start], [start + step], ... *)
Fixpoint arange_from (start step : Z) (n : nat) : list Z :=
  match n with
  | O => []
  | S k => start :: arange_from (start + step) step k
  end.

Definition np_arange (start stop step : Z) : list Z :=
  arange_from start step (Z.to_nat (- ((- (stop - start)) / step)))%Z.

(** [SNR_VALUES_DB = np.arange(-10, 20, 2)] *)
Definition SNR_VALUES_DB : list Z := np_arange (-10) 20 2.

(** ** The configuration summary

    [print_config] writes lines to the standard output.  A line is kept as
    the fragments of its f-string: literal text (as UTF-8 bytes), a number
    put in with [{v}], a number put in with [{v:.nf}].  How a number is
    turned into digits is not modelled. *)

Inductive fragment : Type :=
| Lit (s : string)
| Show (v : R)
| Fixed (digits : nat) (v : float64).

Definition line : Type := list fragment.

(** A computation that prints: it extends the output written so far and
    returns a value or raises; what was printed before an exception stays
    printed. *)
Definition io (A : Type) : Type := list line -> list line * result A.

Definition io_ret {A : Type} (a : A) : io A := fun out => (out, Ok a).

Definition io_bind {A B : Type} (m : io A) (k : A -> io B) : io B :=
  fun out =>
    match m out with
    | (out', Ok a) => k a out'
    | (out', Raise e) => (out', Raise e)
    end.

Definition eval {A : Type} (m : result A) : io A := fun out => (out, m).

Definition print (l : line) : io unit := fun out => (out ++ [l], Ok tt).

Notation "x <~ m ;; k" := (io_bind m (fun x => k))
  (at level 61, m at next level, right associativity).
Notation "m ;;; k" := (io_bind m (fun _ => k))
  (at level 61, right associativity).

(** [s * n] on a Python string. *)
Fixpoint py_str_repeat (s : string) (n : nat) : string :=
  match n with
  | O => EmptyString
  | S k => (s ++ py_str_repeat s k)%string
  end.

Definition newline : string := String (ascii_of_nat 10) EmptyString.

Definition print_config : io unit :=
  print [Lit (py_str_repeat "=" 70)] ;;;
  print [Lit "RADAR SYSTEM CONFIGURATION"] ;;;
  print [Lit (py_str_repeat "=" 70)] ;;;
  print [Lit (newline ++ "TRANSMITTER:")] ;;;
  carrier_ghz <~ eval (py_truediv CARRIER_FREQUENCY 1e9) ;;
  print [Lit "  carrier frequency: "; Fixed 1 (Finite carrier_ghz); Lit " GHz"] ;;;
  print [Lit "  pulse width: "; Fixed 1 (Finite (PULSE_WIDTH * 1e6)); Lit " μs"] ;;;
  print [Lit "  PRF: "; Show PRF; Lit " Hz"] ;;;
  power_kw <~ eval (py_truediv TRANSMIT_POWER 1e3) ;;
  print [Lit "  transmit power: "; Fixed 1 (Finite power_kw); Lit " kW"] ;;;
  print [Lit (newline ++ "RECEIVER:")] ;;;
  sampling_ghz <~ eval (py_truediv SAMPLING_FREQUENCY 1e9) ;;
  print [Lit "  sampling frequency: "; Fixed 1 (Finite sampling_ghz); Lit " GHz"] ;;;
  print [Lit "  noise figure: "; Show NOISE_FIGURE_DB; Lit " dB"] ;;;
  noise_power <~ eval calculate_thermal_noise_power ;;
  noise_dbw <~ eval (linear_to_db noise_power) ;;
  print [Lit "  thermal noise power: "; Fixed 1 noise_dbw; Lit " dBW"] ;;;
  print [Lit (newline ++ "SCENARIO:")] ;;;
  max_range_km <~ eval (py_truediv MAX_RANGE 1e3) ;;
  print [Lit "  max range: "; Fixed 1 (Finite max_range_km); Lit " km"] ;;;
  default_range_km <~ eval (py_truediv DEFAULT_TARGET_RANGE 1e3) ;;
  print [Lit "  default target range: "; Fixed 1 (Finite default_range_km);
         Lit " km"] ;;;
  print [Lit "  default RCS: "; Show DEFAULT_RCS; Lit " m²"] ;;;
  wavelength <~ eval (py_truediv SPEED_OF_LIGHT CARRIER_FREQUENCY) ;;
  range_resolution <~ eval (py_truediv (SPEED_OF_LIGHT * PULSE_WIDTH) 2) ;;
  max_unambiguous_range <~ eval (py_truediv SPEED_OF_LIGHT (2 * PRF)) ;;
  print [Lit (newline ++ "PERFORMANCE:")] ;;;
  print [Lit "  wavelength: "; Fixed 2 (Finite (wavelength * 100)); Lit " cm"] ;;;
  print [Lit "  range resolution: "; Fixed 1 (Finite range_resolution); Lit " m"] ;;;
  unambiguous_km <~ eval (py_truediv max_unambiguous_range 1e3) ;;
  print [Lit "  max unambiguous range: "; Fixed 1 (Finite unambiguous_km);
         Lit " km"] ;;;
  default_snr <~ eval (calculate_snr_from_range DEFAULT_TARGET_RANGE DEFAULT_RCS) ;;
  print [Lit "  SNR at default range: "; Fixed 1 default_snr; Lit " dB"] ;;;
  print [Lit (py_str_repeat "=" 70)].

(** [print] writes the text of its argument and then a newline, so a call
    writes one line more than the newline characters inside its text.  A
    formatted number holds no newline. *)
Fixpoint count_newlines (s : string) : nat :=
  match s with
  | EmptyString => 0
  | String c rest =>
      (if Ascii.eqb c (ascii_of_nat 10) then 1 else 0) + count_newlines rest
  end.

Definition fragment_newlines (f : fragment) : nat :=
  match f with
  | Lit s => count_newlines s
  | Show _ => 0
  | Fixed _ _ => 0
  end.

Definition text_lines (l : line) : nat :=
  S (list_sum (map fragment_newlines l)).

Definition output_text_lines (out : list line) : nat :=
  list_sum (map text_lines out).

(** A fragment that shows a finite number: neither [inf] nor [nan]. *)
Definition fragment_finite (f : fragment) : Prop :=
  match f with
  | Fixed _ v => exists r : R, v = Finite r
  | _ => True
  end.

(** ** Basic facts about the primitives *)

Lemma py_truediv_ok (x y : R) : y <> 0 -> py_truediv x y = Ok (x / y).
Proof.
  intros Hy. unfold py_truediv.
  destruct (Req_dec_T y 0) as [E | _]; [contradiction | reflexivity].
Qed.

Lemma py_truediv_zero (x : R) : py_truediv x 0 = Raise ZeroDivisionError.
Proof.
  unfold py_truediv.
  destruct (Req_dec_T 0 0) as [_ | N]; [reflexivity | now elim N].
Qed.

Lemma np_log10_pos (x : R) : 0 < x -> np_log10 x = Finite (log10 x).
Proof.
  intros Hx. unfold np_log10.
  destruct (total_order_T 0 x) as [[_ | E] | G]; [reflexivity | lra | lra].
Qed.

Lemma np_log10_zero : np_log10 0 = NegInf.
Proof.
  unfold np_log10.
  destruct (total_order_T 0 0) as [[L | _] | G]; [lra | reflexivity | lra].
Qed.

Lemma np_log10_neg (x : R) : x < 0 -> np_log10 x = NaN.
Proof.
  intros Hx. unfold np_log10.
  destruct (total_order_T 0 x) as [[L | E] | _]; [lra | lra | reflexivity].
Qed.

Lemma np_scale_pos_neginf (k : R) : 0 < k -> np_scale k NegInf = NegInf.
Proof.
  intros Hk. simpl.
  destruct (total_order_T 0 k) as [[_ | E] | G]; [reflexivity | lra | lra].
Qed.

Lemma ln10_pos : 0 < ln 10.
Proof. rewrite <- ln_1. apply ln_increasing; lra. Qed.

Lemma log10_mult (x y : R) : 0 < x -> 0 < y -> log10 (x * y) = log10 x + log10 y.
Proof.
  intros Hx Hy. unfold log10. rewrite ln_mult by assumption.
  pose proof ln10_pos. field. lra.
Qed.

Lemma log10_inv (x : R) : 0 < x -> log10 (/ x) = - log10 x.
Proof.
  intros Hx. unfold log10. rewrite ln_Rinv by assumption.
  pose proof ln10_pos. field. lra.
Qed.

Lemma log10_div (x y : R) : 0 < x -> 0 < y -> log10 (x / y) = log10 x - log10 y.
Proof.
  intros Hx Hy. unfold Rdiv.
  rewrite log10_mult by (try apply Rinv_0_lt_compat; assumption).
  rewrite log10_inv by assumption. ring.
Qed.

Lemma log10_increasing (x y : R) : 0 < x -> x < y -> log10 x < log10 y.
Proof.
  intros Hx Hxy. unfold log10.
  apply Rmult_lt_compat_r.
  - apply Rinv_0_lt_compat, ln10_pos.
  - now apply ln_increasing.
Qed.

Lemma log10_Rpower (e : R) : log10 (Rpower 10 e) = e.
Proof.
  unfold log10. rewrite ln_Rpower. pose proof ln10_pos. field. lra.
Qed.

Lemma Rpower_pos (x y : R) : 0 < Rpower x y.
Proof. unfold Rpower. apply exp_pos. Qed.

(** ** The functions in closed form *)

Lemma db_to_linear_eq (db_value : R) :
  db_to_linear db_value = Ok (Rpower 10 (db_value / 10)).
Proof.
  unfold db_to_linear. rewrite py_truediv_ok by lra. reflexivity.
Qed.

Lemma linear_to_db_pos (v : R) :
  0 < v -> linear_to_db v = Ok (Finite (10 * log10 v)).
Proof.
  intros Hv. unfold linear_to_db. rewrite np_log10_pos by assumption.
  reflexivity.
Qed.

Lemma thermal_noise_power_eq :
  calculate_thermal_noise_power = Ok noise_power_value.
Proof.
  unfold calculate_thermal_noise_power.
  rewrite py_truediv_ok by (unfold PULSE_WIDTH; lra).
  cbn [bind]. rewrite db_to_linear_eq. reflexivity.
Qed.

Lemma noise_power_value_pos : 0 < noise_power_value.
Proof.
  unfold noise_power_value.
  pose proof (Rpower_pos 10 (NOISE_FIGURE_DB / 10)) as HF.
  assert (HK : 0 < BOLTZMANN_CONSTANT * SYSTEM_TEMPERATURE * (1 / PULSE_WIDTH)).
  { unfold BOLTZMANN_CONSTANT, SYSTEM_TEMPERATURE, PULSE_WIDTH. lra. }
  now apply Rmult_lt_0_compat.
Qed.

Lemma wavelength_value_pos : 0 < wavelength_value.
Proof. unfold wavelength_value, SPEED_OF_LIGHT, CARRIER_FREQUENCY. lra. Qed.

Lemma four_pi_cubed_pos : 0 < (4 * PI) ^ 3.
Proof. apply pow_lt. pose proof PI_RGT_0. lra. Qed.

Lemma pow4_pos (x : R) : x <> 0 -> 0 < x ^ 4.
Proof.
  intros Hx. replace (x ^ 4) with ((x * x) * (x * x)) by ring.
  assert (0 < x * x) by nra. nra.
Qed.

Lemma radar_denominator_pos (target_range : R) :
  target_range <> 0 ->
  0 < (4 * PI) ^ 3 * target_range ^ 4 * noise_power_value.
Proof.
  intros Hr.
  apply Rmult_lt_0_compat; [apply Rmult_lt_0_compat |].
  - apply four_pi_cubed_pos.
  - now apply pow4_pos.
  - apply noise_power_value_pos.
Qed.

Lemma radar_numerator_pos (target_rcs : R) :
  0 < target_rcs -> 0 < TRANSMIT_POWER * wavelength_value ^ 2 * target_rcs.
Proof.
  intros Hs.
  apply Rmult_lt_0_compat; [apply Rmult_lt_0_compat |]; try assumption.
  - unfold TRANSMIT_POWER. lra.
  - apply pow_lt, wavelength_value_pos.
Qed.

Lemma radar_ratio_pos (target_range target_rcs : R) :
  target_range <> 0 -> 0 < target_rcs -> 0 < radar_ratio target_range target_rcs.
Proof.
  intros Hr Hs. unfold radar_ratio.
  apply Rdiv_lt_0_compat.
  - now apply radar_numerator_pos.
  - now apply radar_denominator_pos.
Qed.

(** Away from range [0] the function is [linear_to_db] of the ratio. *)
Lemma snr_from_range_eq (target_range target_rcs : R) :
  target_range <> 0 ->
  calculate_snr_from_range target_range target_rcs
  = linear_to_db (radar_ratio target_range target_rcs).
Proof.
  intros Hr. unfold calculate_snr_from_range.
  rewrite py_truediv_ok by (unfold CARRIER_FREQUENCY; lra).
  cbn [bind]. rewrite thermal_noise_power_eq. cbn [bind].
  rewrite py_truediv_ok.
  - reflexivity.
  - pose proof (radar_denominator_pos target_range Hr). lra.
Qed.

(** At range [0] the denominator is [0] and the division raises. *)
Lemma snr_from_range_zero (target_rcs : R) :
  calculate_snr_from_range 0 target_rcs = Raise ZeroDivisionError.
Proof.
  unfold calculate_snr_from_range.
  rewrite py_truediv_ok by (unfold CARRIER_FREQUENCY; lra).
  cbn [bind]. rewrite thermal_noise_power_eq. cbn [bind].
  replace ((4 * PI) ^ 3 * 0 ^ 4 * noise_power_value) with 0 by ring.
  rewrite py_truediv_zero. reflexivity.
Qed.

(** ** Radar equation and thermal noise *)

(** C1.  For a positive range and a positive cross-section,
    [calculate_snr_from_range] returns [linear_to_db] of
    [(TRANSMIT_POWER * wavelength^2 * rcs) / ((4 pi)^3 * range^4 * N)],
    with [wavelength = SPEED_OF_LIGHT / CARRIER_FREQUENCY] and [N] the value
    of [calculate_thermal_noise_power]; that is the finite number
    [10 * log10] of the ratio, whose denominator carries the range to the
    fourth power. *)
Theorem snr_from_range_radar_equation (target_range target_rcs : R) :
  0 < target_range -> 0 < target_rcs ->
  exists wavelength N : R,
    wavelength = SPEED_OF_LIGHT / CARRIER_FREQUENCY
    /\ calculate_thermal_noise_power = Ok N
    /\ calculate_snr_from_range target_range target_rcs
       = linear_to_db ((TRANSMIT_POWER * wavelength ^ 2 * target_rcs)
                       / ((4 * PI) ^ 3 * target_range ^ 4 * N))
    /\ calculate_snr_from_range target_range target_rcs
       = Ok (Finite (10 * log10 ((TRANSMIT_POWER * wavelength ^ 2 * target_rcs)
                                 / ((4 * PI) ^ 3 * target_range ^ 4 * N)))).
Proof.
  intros Hr Hs.
  exists wavelength_value, noise_power_value.
  assert (Hne : target_range <> 0) by lra.
  repeat split.
  - apply thermal_noise_power_eq.
  - now apply snr_from_range_eq.
  - rewrite snr_from_range_eq by assumption.
    apply linear_to_db_pos. now apply radar_ratio_pos.
Qed.

Lemma snr_from_range_radar_equation_default :
  calculate_snr_from_range 5000 10
  = Ok (Finite (10 * log10 ((TRANSMIT_POWER
                             * (SPEED_OF_LIGHT / CARRIER_FREQUENCY) ^ 2 * 10)
                            / ((4 * PI) ^ 3 * 5000 ^ 4 * noise_power_value)))).
Proof.
  destruct (snr_from_range_radar_equation 5000 10) as (w & N & Hw & HN & _ & H);
    [lra | lra |].
  rewrite thermal_noise_power_eq in HN. injection HN as HN.
  rewrite H, Hw, HN. reflexivity.
Defined.

(** C2.  [calculate_thermal_noise_power] returns
    [BOLTZMANN_CONSTANT * SYSTEM_TEMPERATURE * B * F] where the bandwidth
    [B] is [1 / PULSE_WIDTH] and the noise-figure factor [F] is
    [db_to_linear NOISE_FIGURE_DB]. *)
Theorem thermal_noise_power_kTBF :
  exists B F : R,
    py_truediv 1 PULSE_WIDTH = Ok B
    /\ B = 1 / PULSE_WIDTH
    /\ db_to_linear NOISE_FIGURE_DB = Ok F
    /\ calculate_thermal_noise_power
       = Ok (BOLTZMANN_CONSTANT * SYSTEM_TEMPERATURE * B * F).
Proof.
  exists (1 / PULSE_WIDTH), (Rpower 10 (NOISE_FIGURE_DB / 10)).
  repeat split.
  - apply py_truediv_ok. unfold PULSE_WIDTH. lra.
  - apply db_to_linear_eq.
  - apply thermal_noise_power_eq.
Qed.

(** ** Round trips *)

(** C6.  For every [r >= 0], converting a range to its two-way delay and
    back gives [r] again. *)
Theorem time_delay_range_round_trip (r : R) :
  0 <= r ->
  (d <- range_to_time_delay r ;; time_delay_to_range d) = Ok r.
Proof.
  intros _. unfold range_to_time_delay, time_delay_to_range.
  rewrite py_truediv_ok by (unfold SPEED_OF_LIGHT; lra).
  cbn [bind]. rewrite py_truediv_ok by lra.
  f_equal. unfold SPEED_OF_LIGHT. field.
Qed.

Lemma time_delay_range_round_trip_default :
  (d <- range_to_time_delay 5000 ;; time_delay_to_range d) = Ok 5000.
Proof. apply (time_delay_range_round_trip 5000). lra. Defined.

(** C7.  For every real [x], [linear_to_db (db_to_linear x)] is [x]: the two
    conversions are inverse to each other, one being [10 ^ (x / 10)] and the
    other [10 * log10]. *)
Theorem db_linear_round_trip (x : R) :
  db_to_linear x = Ok (Rpower 10 (x / 10))
  /\ linear_to_db (Rpower 10 (x / 10))
     = Ok (Finite (10 * log10 (Rpower 10 (x / 10))))
  /\ (l <- db_to_linear x ;; linear_to_db l) = Ok (Finite x).
Proof.
  assert (H : linear_to_db (Rpower 10 (x / 10))
              = Ok (Finite (10 * log10 (Rpower 10 (x / 10))))).
  { apply linear_to_db_pos, Rpower_pos. }
  repeat split.
  - apply db_to_linear_eq.
  - exact H.
  - rewrite db_to_linear_eq. cbn [bind]. rewrite H, log10_Rpower.
    do 2 f_equal. field.
Qed.

(** ** Dependence of the SNR on the range *)

Lemma pow4_increasing (a b : R) : 0 < a -> a < b -> a ^ 4 < b ^ 4.
Proof.
  intros Ha Hab.
  replace (a ^ 4) with ((a * a) * (a * a)) by ring.
  replace (b ^ 4) with ((b * b) * (b * b)) by ring.
  assert (0 < a * a) by nra.
  assert (a * a < b * b) by nra.
  nra.
Qed.

Lemma radar_ratio_decreasing (r1 r2 target_rcs : R) :
  0 < target_rcs -> 0 < r1 -> r1 < r2 ->
  radar_ratio r2 target_rcs < radar_ratio r1 target_rcs.
Proof.
  intros Hs H1 H12. unfold radar_ratio, Rdiv.
  apply Rmult_lt_compat_l; [now apply radar_numerator_pos |].
  assert (Hd1 : 0 < (4 * PI) ^ 3 * r1 ^ 4 * noise_power_value)
    by (apply radar_denominator_pos; lra).
  assert (Hd2 : 0 < (4 * PI) ^ 3 * r2 ^ 4 * noise_power_value)
    by (apply radar_denominator_pos; lra).
  apply Rinv_lt_contravar; [now apply Rmult_lt_0_compat |].
  apply Rmult_lt_compat_r; [apply noise_power_value_pos |].
  apply Rmult_lt_compat_l; [apply four_pi_cubed_pos |].
  now apply pow4_increasing.
Qed.

Lemma radar_ratio_double (target_range target_rcs : R) :
  target_range <> 0 ->
  radar_ratio (2 * target_range) target_rcs
  = radar_ratio target_range target_rcs / 16.
Proof.
  intros Hr. unfold radar_ratio.
  pose proof noise_power_value_pos as HN. pose proof PI_RGT_0 as HPI.
  field. repeat split; (assumption || lra).
Qed.

(** X18.  Over real arithmetic: for a fixed positive cross-section and ranges
    [0 < r1 < r2], the SNR at [r2] is strictly below the SNR at [r1].
    Rounding is not modelled: in binary64 two adjacent ranges can give the
    same SNR. *)
Theorem snr_from_range_strictly_decreasing (r1 r2 target_rcs : R) :
  0 < target_rcs -> 0 < r1 -> r1 < r2 ->
  exists snr1 snr2 : R,
    calculate_snr_from_range r1 target_rcs = Ok (Finite snr1)
    /\ calculate_snr_from_range r2 target_rcs = Ok (Finite snr2)
    /\ snr2 < snr1.
Proof.
  intros Hs H1 H12.
  exists (10 * log10 (radar_ratio r1 target_rcs)),
         (10 * log10 (radar_ratio r2 target_rcs)).
  assert (P1 : 0 < radar_ratio r1 target_rcs) by (apply radar_ratio_pos; lra).
  assert (P2 : 0 < radar_ratio r2 target_rcs) by (apply radar_ratio_pos; lra).
  repeat split.
  - rewrite snr_from_range_eq by lra. now apply linear_to_db_pos.
  - rewrite snr_from_range_eq by lra. now apply linear_to_db_pos.
  - apply Rmult_lt_compat_l; [lra |].
    apply log10_increasing; [assumption |].
    now apply radar_ratio_decreasing.
Qed.

Lemma snr_from_range_strictly_decreasing_default :
  exists snr1 snr2 : R,
    calculate_snr_from_range 100 10 = Ok (Finite snr1)
    /\ calculate_snr_from_range 5000 10 = Ok (Finite snr2)
    /\ snr2 < snr1.
Proof. apply (snr_from_range_strictly_decreasing 100 5000 10); lra. Defined.

(** X19.  Over real arithmetic: for a positive range and a positive
    cross-section, doubling the range divides the linear SNR by 16, and the
    value in dB goes down by [10 * log10 16].  Rounding is not modelled: in
    binary64 the two sides can differ in the last digit. *)
Theorem snr_from_range_double_range (target_range target_rcs : R) :
  0 < target_range -> 0 < target_rcs ->
  exists snr_linear snr_db : R,
    0 < snr_linear
    /\ calculate_snr_from_range target_range target_rcs
       = linear_to_db snr_linear
    /\ calculate_snr_from_range (2 * target_range) target_rcs
       = linear_to_db (snr_linear / 16)
    /\ calculate_snr_from_range target_range target_rcs = Ok (Finite snr_db)
    /\ calculate_snr_from_range (2 * target_range) target_rcs
       = Ok (Finite (snr_db - 10 * log10 16)).
Proof.
  intros Hr Hs.
  assert (P : 0 < radar_ratio target_range target_rcs)
    by (apply radar_ratio_pos; lra).
  assert (E2 : calculate_snr_from_range (2 * target_range) target_rcs
               = linear_to_db (radar_ratio target_range target_rcs / 16)).
  { rewrite snr_from_range_eq by lra. now rewrite radar_ratio_double by lra. }
  exists (radar_ratio target_range target_rcs),
         (10 * log10 (radar_ratio target_range target_rcs)).
  repeat split.
  - exact P.
  - apply snr_from_range_eq. lra.
  - exact E2.
  - rewrite snr_from_range_eq by lra. now apply linear_to_db_pos.
  - rewrite E2, linear_to_db_pos by lra.
    rewrite log10_div by lra. do 2 f_equal. ring.
Qed.

Lemma snr_from_range_double_range_default :
  exists snr_db : R,
    calculate_snr_from_range 5000 10 = Ok (Finite snr_db)
    /\ calculate_snr_from_range (2 * 5000) 10
       = Ok (Finite (snr_db - 10 * log10 16)).
Proof.
  destruct (snr_from_range_double_range 5000 10) as (l & s & _ & _ & _ & H1 & H2);
    [lra | lra |].
  exists s. split; assumption.
Defined.

(** ** Positivity *)

(** C10.  [db_to_linear] returns a strictly positive number for every real
    argument, negative ones included; hence the noise-figure factor is
    positive, [calculate_thermal_noise_power] returns a positive number, and
    [linear_to_db] maps that number to a finite value. *)
Theorem db_to_linear_and_noise_power_positive :
  (forall db_value : R,
      exists v : R, db_to_linear db_value = Ok v /\ 0 < v)
  /\ (exists F : R, db_to_linear NOISE_FIGURE_DB = Ok F /\ 0 < F)
  /\ (exists N : R,
         calculate_thermal_noise_power = Ok N
         /\ 0 < N
         /\ linear_to_db N = Ok (Finite (10 * log10 N))).
Proof.
  assert (D : forall db_value : R,
             exists v : R, db_to_linear db_value = Ok v /\ 0 < v).
  { intros db_value. exists (Rpower 10 (db_value / 10)).
    split; [apply db_to_linear_eq | apply Rpower_pos]. }
  split; [exact D |]. split; [apply D |].
  exists noise_power_value. repeat split.
  - apply thermal_noise_power_eq.
  - apply noise_power_value_pos.
  - apply linear_to_db_pos, noise_power_value_pos.
Qed.

(** ** Arguments outside the physical domain

    The module validates nothing: no function tests its argument and no
    function raises [InvalidInputError].  The lemmas below say what each
    function returns on the arguments a domain guard would refuse. *)

Lemma linear_to_db_zero : linear_to_db 0 = Ok NegInf.
Proof.
  unfold linear_to_db. rewrite np_log10_zero, np_scale_pos_neginf by lra.
  reflexivity.
Qed.

Lemma linear_to_db_neg (v : R) : v < 0 -> linear_to_db v = Ok NaN.
Proof.
  intros Hv. unfold linear_to_db. rewrite np_log10_neg by assumption.
  reflexivity.
Qed.

Lemma radar_ratio_neg_range (target_range target_rcs : R) :
  radar_ratio (- target_range) target_rcs = radar_ratio target_range target_rcs.
Proof.
  unfold radar_ratio.
  replace ((- target_range) ^ 4) with (target_range ^ 4) by ring.
  reflexivity.
Qed.

(** C3 at range [-1] and cross-section [1]: the function returns a finite
    SNR, it does not fail. *)
Lemma snr_from_range_negative_range_returns :
  -1 <= 0
  /\ (exists snr_db : R, calculate_snr_from_range (-1) 1 = Ok (Finite snr_db))
  /\ calculate_snr_from_range (-1) 1 <> Raise InvalidInputError.
Proof.
  assert (E : calculate_snr_from_range (-1) 1
              = Ok (Finite (10 * log10 (radar_ratio (-1) 1)))).
  { rewrite snr_from_range_eq by lra.
    apply linear_to_db_pos, radar_ratio_pos; lra. }
  split; [lra |]. split.
  - eexists. exact E.
  - rewrite E. discriminate.
Qed.

(** C3, as the code has it.  [calculate_snr_from_range] has no domain guard
    and never fails with [InvalidInputError].  For a range other than [0],
    negative ones included, it returns [linear_to_db] of the radar-equation
    ratio, the same value at [- range] as at [range]: a finite number when
    the cross-section is positive, [-inf] when it is [0], [nan] when it is
    negative.  At range [0] the division raises [ZeroDivisionError]. *)
Theorem snr_from_range_no_domain_guard (target_range target_rcs : R) :
  calculate_snr_from_range target_range target_rcs <> Raise InvalidInputError
  /\ (target_range <> 0 ->
      calculate_snr_from_range target_range target_rcs
      = linear_to_db (radar_ratio target_range target_rcs)
      /\ calculate_snr_from_range (- target_range) target_rcs
         = calculate_snr_from_range target_range target_rcs
      /\ (0 < target_rcs ->
          calculate_snr_from_range target_range target_rcs
          = Ok (Finite (10 * log10 (radar_ratio target_range target_rcs))))
      /\ (target_rcs = 0 ->
          calculate_snr_from_range target_range target_rcs = Ok NegInf)
      /\ (target_rcs < 0 ->
          calculate_snr_from_range target_range target_rcs = Ok NaN))
  /\ (target_range = 0 ->
      calculate_snr_from_range target_range target_rcs
      = Raise ZeroDivisionError).
Proof.
  split; [| split].
  - destruct (Req_dec_T target_range 0) as [-> | Hr].
    + rewrite snr_from_range_zero. discriminate.
    + rewrite snr_from_range_eq by assumption.
      unfold linear_to_db. discriminate.
  - intros Hr.
    pose proof (radar_denominator_pos target_range Hr) as Hd.
    repeat split.
    + now apply snr_from_range_eq.
    + rewrite !snr_from_range_eq by lra.
      now rewrite radar_ratio_neg_range.
    + intros Hs. rewrite snr_from_range_eq by assumption.
      apply linear_to_db_pos. now apply radar_ratio_pos.
    + intros ->. rewrite snr_from_range_eq by assumption.
      replace (radar_ratio target_range 0) with 0.
      * apply linear_to_db_zero.
      * unfold radar_ratio, Rdiv. ring.
    + intros Hs. rewrite snr_from_range_eq by assumption.
      apply linear_to_db_neg. unfold radar_ratio.
      assert (Hn : 0 < TRANSMIT_POWER * wavelength_value ^ 2 * (- target_rcs))
        by (apply radar_numerator_pos; lra).
      assert (Hq : 0 < (TRANSMIT_POWER * wavelength_value ^ 2 * (- target_rcs))
                       / ((4 * PI) ^ 3 * target_range ^ 4 * noise_power_value))
        by now apply Rdiv_lt_0_compat.
      replace ((TRANSMIT_POWER * wavelength_value ^ 2 * target_rcs)
               / ((4 * PI) ^ 3 * target_range ^ 4 * noise_power_value))
        with (- ((TRANSMIT_POWER * wavelength_value ^ 2 * (- target_rcs))
                 / ((4 * PI) ^ 3 * target_range ^ 4 * noise_power_value)))
        by (unfold Rdiv; ring).
      lra.
  - intros ->. apply snr_from_range_zero.
Qed.

(** C4 at [0]: [linear_to_db 0] returns [-inf]; it does not fail. *)
Lemma linear_to_db_zero_returns :
  0 <= 0
  /\ linear_to_db 0 = Ok NegInf
  /\ linear_to_db 0 <> Raise InvalidInputError.
Proof.
  split; [lra |]. split; [apply linear_to_db_zero |].
  rewrite linear_to_db_zero. discriminate.
Qed.

(** C4, as the code has it.  [linear_to_db] never fails: it returns
    [10 * log10 v] for [v > 0], [-inf] for [v = 0] and [nan] for [v < 0]. *)
Theorem linear_to_db_total (v : R) :
  (forall e : py_exception, linear_to_db v <> Raise e)
  /\ (0 < v -> linear_to_db v = Ok (Finite (10 * log10 v)))
  /\ (v = 0 -> linear_to_db v = Ok NegInf)
  /\ (v < 0 -> linear_to_db v = Ok NaN).
Proof.
  repeat split.
  - intros e. unfold linear_to_db. discriminate.
  - apply linear_to_db_pos.
  - intros ->. apply linear_to_db_zero.
  - apply linear_to_db_neg.
Qed.

(** C5 at [-1]: [range_to_time_delay (-1)] returns the negative delay
    [2 * -1 / c]; it does not fail. *)
Lemma range_to_time_delay_negative_returns :
  -1 < 0
  /\ range_to_time_delay (-1) = Ok (2 * -1 / SPEED_OF_LIGHT)
  /\ range_to_time_delay (-1) <> Raise InvalidInputError.
Proof.
  assert (E : range_to_time_delay (-1) = Ok (2 * -1 / SPEED_OF_LIGHT)).
  { unfold range_to_time_delay. apply py_truediv_ok.
    unfold SPEED_OF_LIGHT. lra. }
  split; [lra |]. split; [exact E |]. rewrite E. discriminate.
Qed.

(** C5, as the code has it.  Neither conversion has a domain guard:
    [range_to_time_delay] returns [2 * range / SPEED_OF_LIGHT] and
    [time_delay_to_range] returns [delay * SPEED_OF_LIGHT / 2] for every
    real argument, negative ones included. *)
Theorem delay_conversions_total (x : R) :
  range_to_time_delay x = Ok (2 * x / SPEED_OF_LIGHT)
  /\ time_delay_to_range x = Ok (x * SPEED_OF_LIGHT / 2).
Proof.
  split.
  - unfold range_to_time_delay. apply py_truediv_ok.
    unfold SPEED_OF_LIGHT. lra.
  - unfold time_delay_to_range. apply py_truediv_ok. lra.
Qed.

(** ** Further laws of the conversions *)

Lemma range_to_time_delay_eq (range_m : R) :
  range_to_time_delay range_m = Ok (2 * range_m / SPEED_OF_LIGHT).
Proof.
  unfold range_to_time_delay. apply py_truediv_ok. unfold SPEED_OF_LIGHT. lra.
Qed.

Lemma time_delay_to_range_eq (delay_s : R) :
  time_delay_to_range delay_s = Ok (delay_s * SPEED_OF_LIGHT / 2).
Proof. unfold time_delay_to_range. apply py_truediv_ok. lra. Qed.

(** X1.  Converting a delay to a range and back gives the delay again, for
    every real delay. *)
Theorem range_time_delay_round_trip (delay_s : R) :
  (r <- time_delay_to_range delay_s ;; range_to_time_delay r) = Ok delay_s.
Proof.
  rewrite time_delay_to_range_eq. cbn [bind].
  rewrite range_to_time_delay_eq. f_equal.
  unfold SPEED_OF_LIGHT. field.
Qed.

(** X2.  Over real arithmetic both delay conversions are strictly
    increasing: a farther target has a longer two-way delay, a longer delay
    a farther target.  Rounding is not modelled: in binary64 two adjacent
    arguments can give the same result. *)
Theorem delay_conversions_strictly_increasing (a b : R) :
  a < b ->
  exists da db ra rb : R,
    range_to_time_delay a = Ok da /\ range_to_time_delay b = Ok db
    /\ da < db
    /\ time_delay_to_range a = Ok ra /\ time_delay_to_range b = Ok rb
    /\ ra < rb.
Proof.
  intros Hab.
  exists (2 * a / SPEED_OF_LIGHT), (2 * b / SPEED_OF_LIGHT),
         (a * SPEED_OF_LIGHT / 2), (b * SPEED_OF_LIGHT / 2).
  rewrite !range_to_time_delay_eq, !time_delay_to_range_eq.
  unfold SPEED_OF_LIGHT. repeat split; lra.
Qed.

Lemma delay_conversions_strictly_increasing_example :
  exists da db ra rb : R,
    range_to_time_delay 100 = Ok da /\ range_to_time_delay 15000 = Ok db
    /\ da < db
    /\ time_delay_to_range 100 = Ok ra /\ time_delay_to_range 15000 = Ok rb
    /\ ra < rb.
Proof. apply (delay_conversions_strictly_increasing 100 15000). lra. Defined.

(** X3.  For every positive [v], [db_to_linear (linear_to_db v)] is [v]:
    [linear_to_db] returns a finite number of decibels and [db_to_linear]
    takes it back to [v]. *)
Theorem linear_db_round_trip (v : R) :
  0 < v ->
  exists db_value : R,
    linear_to_db v = Ok (Finite db_value)
    /\ db_to_linear db_value = Ok v.
Proof.
  intros Hv. exists (10 * log10 v). split.
  - now apply linear_to_db_pos.
  - rewrite db_to_linear_eq. f_equal.
    replace (10 * log10 v / 10) with (log10 v) by field.
    unfold Rpower, log10.
    replace (ln v / ln 10 * ln 10) with (ln v)
      by (pose proof ln10_pos; field; lra).
    now apply exp_ln.
Qed.

Lemma linear_db_round_trip_example :
  exists db_value : R,
    linear_to_db 2 = Ok (Finite db_value) /\ db_to_linear db_value = Ok 2.
Proof. apply (linear_db_round_trip 2). lra. Defined.

(** X4.  Over real arithmetic adding decibels multiplies linear values:
    [db_to_linear (a + b)] is the product of [db_to_linear a] and
    [db_to_linear b], and [db_to_linear 0] is [1].  Rounding is not
    modelled: in binary64 the product can differ in the last digit. *)
Theorem db_to_linear_sum (a b : R) :
  (exists la lb : R,
      db_to_linear a = Ok la /\ db_to_linear b = Ok lb
      /\ db_to_linear (a + b) = Ok (la * lb))
  /\ db_to_linear 0 = Ok 1.
Proof.
  split.
  - exists (Rpower 10 (a / 10)), (Rpower 10 (b / 10)).
    rewrite !db_to_linear_eq. repeat split.
    rewrite <- Rpower_plus. do 2 f_equal. field.
  - rewrite db_to_linear_eq. f_equal.
    replace (0 / 10) with 0 by field. apply Rpower_O. lra.
Qed.

(** X5.  Over real arithmetic multiplying positive linear values adds their
    decibels.  Rounding is not modelled: in binary64 the sum can differ in
    the last digit. *)
Theorem linear_to_db_product (x y : R) :
  0 < x -> 0 < y ->
  exists dx dy : R,
    linear_to_db x = Ok (Finite dx) /\ linear_to_db y = Ok (Finite dy)
    /\ linear_to_db (x * y) = Ok (Finite (dx + dy)).
Proof.
  intros Hx Hy. exists (10 * log10 x), (10 * log10 y).
  rewrite !linear_to_db_pos by (try apply Rmult_lt_0_compat; assumption).
  repeat split. rewrite log10_mult by assumption. do 2 f_equal. ring.
Qed.

Lemma linear_to_db_product_example :
  exists dx dy : R,
    linear_to_db 2 = Ok (Finite dx) /\ linear_to_db 8 = Ok (Finite dy)
    /\ linear_to_db (2 * 8) = Ok (Finite (dx + dy)).
Proof. apply (linear_to_db_product 2 8); lra. Defined.

(** X6.  Over real arithmetic [db_to_linear] is strictly increasing.
    Rounding is not modelled: in binary64 two adjacent arguments can give
    the same result. *)
Theorem db_to_linear_strictly_increasing (a b : R) :
  a < b ->
  exists la lb : R,
    db_to_linear a = Ok la /\ db_to_linear b = Ok lb /\ la < lb.
Proof.
  intros Hab. exists (Rpower 10 (a / 10)), (Rpower 10 (b / 10)).
  rewrite !db_to_linear_eq. repeat split.
  apply Rpower_lt; lra.
Qed.

Lemma db_to_linear_strictly_increasing_example :
  exists la lb : R,
    db_to_linear (-10) = Ok la /\ db_to_linear 20 = Ok lb /\ la < lb.
Proof. apply (db_to_linear_strictly_increasing (-10) 20). lra. Defined.

(** X7.  Over real arithmetic, on positive values [linear_to_db] is strictly
    increasing, and it is negative exactly below [1] (a ratio under one is
    a negative number of decibels).  Rounding is not modelled: in binary64
    distinct arguments can give the same result. *)
Theorem linear_to_db_strictly_increasing (x y : R) :
  0 < x -> x < y ->
  exists dx dy : R,
    linear_to_db x = Ok (Finite dx) /\ linear_to_db y = Ok (Finite dy)
    /\ dx < dy
    /\ (dx < 0 <-> x < 1).
Proof.
  intros Hx Hxy. exists (10 * log10 x), (10 * log10 y).
  rewrite !linear_to_db_pos by lra. repeat split.
  - pose proof (log10_increasing x y Hx Hxy). lra.
  - intros Hd. destruct (Rlt_dec x 1) as [L | G]; [exact L | exfalso].
    assert (H1 : log10 1 <= log10 x).
    { destruct (Req_dec_T x 1) as [-> | Hne]; [lra |].
      left. apply log10_increasing; lra. }
    unfold log10 in H1 at 1. rewrite ln_1 in H1.
    unfold Rdiv in H1. rewrite Rmult_0_l in H1. lra.
  - intros Hx1. pose proof (log10_increasing x 1 Hx Hx1) as H.
    unfold log10 in H at 2. rewrite ln_1 in H.
    unfold Rdiv in H. rewrite Rmult_0_l in H. lra.
Qed.

Lemma linear_to_db_strictly_increasing_example :
  exists dx dy : R,
    linear_to_db (1 / 2) = Ok (Finite dx) /\ linear_to_db 2 = Ok (Finite dy)
    /\ dx < dy
    /\ (dx < 0 <-> 1 / 2 < 1).
Proof. apply (linear_to_db_strictly_increasing (1 / 2) 2); lra. Defined.

(** ** Further laws of the radar equation *)

Lemma log10_1 : log10 1 = 0.
Proof. unfold log10. rewrite ln_1. unfold Rdiv. apply Rmult_0_l. Qed.

Lemma log10_10 : log10 10 = 1.
Proof. unfold log10. pose proof ln10_pos. field. lra. Qed.

Lemma log10_pow4 (k : R) : 0 < k -> log10 (k ^ 4) = 4 * log10 k.
Proof.
  intros Hk. unfold log10. rewrite ln_pow by assumption.
  pose proof ln10_pos. simpl INR. field. lra.
Qed.

Lemma radar_ratio_scale_range (k target_range target_rcs : R) :
  k <> 0 -> target_range <> 0 ->
  radar_ratio (k * target_range) target_rcs
  = radar_ratio target_range target_rcs / k ^ 4.
Proof.
  intros Hk Hr. unfold radar_ratio.
  pose proof noise_power_value_pos as HN. pose proof PI_RGT_0 as HPI.
  field. repeat split; (assumption || lra).
Qed.

Lemma radar_ratio_scale_rcs (k target_range target_rcs : R) :
  radar_ratio target_range (k * target_rcs)
  = k * radar_ratio target_range target_rcs.
Proof. unfold radar_ratio, Rdiv. ring. Qed.

Lemma snr_from_range_finite (target_range target_rcs : R) :
  target_range <> 0 -> 0 < target_rcs ->
  calculate_snr_from_range target_range target_rcs
  = Ok (Finite (10 * log10 (radar_ratio target_range target_rcs))).
Proof.
  intros Hr Hs. rewrite snr_from_range_eq by assumption.
  apply linear_to_db_pos. now apply radar_ratio_pos.
Qed.

(** X8.  Inverse fourth power of range, in decibels, over real arithmetic:
    for a positive range and cross-section, multiplying the range by
    [k > 0] lowers the SNR by [40 * log10 k]; ten times the range costs
    40 dB.  Rounding is not modelled: in binary64 the two sides can differ
    in the last digit. *)
Theorem snr_from_range_scale_range (target_range target_rcs : R) :
  0 < target_range -> 0 < target_rcs ->
  exists snr_db : R,
    calculate_snr_from_range target_range target_rcs = Ok (Finite snr_db)
    /\ (forall k : R, 0 < k ->
          calculate_snr_from_range (k * target_range) target_rcs
          = Ok (Finite (snr_db - 40 * log10 k)))
    /\ calculate_snr_from_range (10 * target_range) target_rcs
       = Ok (Finite (snr_db - 40)).
Proof.
  intros Hr Hs.
  assert (P : 0 < radar_ratio target_range target_rcs)
    by (apply radar_ratio_pos; lra).
  assert (K : forall k : R, 0 < k ->
            calculate_snr_from_range (k * target_range) target_rcs
            = Ok (Finite (10 * log10 (radar_ratio target_range target_rcs)
                          - 40 * log10 k))).
  { intros k Hk.
    rewrite snr_from_range_finite by (try apply Rmult_integral_contrapositive; lra).
    rewrite radar_ratio_scale_range by lra.
    rewrite log10_div by (try apply pow_lt; assumption).
    rewrite log10_pow4 by assumption. do 2 f_equal. ring. }
  exists (10 * log10 (radar_ratio target_range target_rcs)).
  repeat split.
  - apply snr_from_range_finite; lra.
  - exact K.
  - rewrite K by lra. rewrite log10_10. do 2 f_equal. ring.
Qed.

Lemma snr_from_range_scale_range_example :
  exists snr_db : R,
    calculate_snr_from_range 1500 10 = Ok (Finite snr_db)
    /\ calculate_snr_from_range (10 * 1500) 10 = Ok (Finite (snr_db - 40)).
Proof.
  destruct (snr_from_range_scale_range 1500 10) as (s & H1 & _ & H2);
    [lra | lra |].
  exists s. split; assumption.
Defined.

(** X9.  Over real arithmetic the SNR follows the cross-section decibel for
    decibel: at a range other than [0], multiplying a positive
    cross-section by [k > 0] raises the SNR by [10 * log10 k]; ten times
    the cross-section gains 10 dB.  Rounding is not modelled: in binary64
    the two sides can differ in the last digit. *)
Theorem snr_from_range_scale_rcs (target_range target_rcs : R) :
  target_range <> 0 -> 0 < target_rcs ->
  exists snr_db : R,
    calculate_snr_from_range target_range target_rcs = Ok (Finite snr_db)
    /\ (forall k : R, 0 < k ->
          calculate_snr_from_range target_range (k * target_rcs)
          = Ok (Finite (snr_db + 10 * log10 k)))
    /\ calculate_snr_from_range target_range (10 * target_rcs)
       = Ok (Finite (snr_db + 10)).
Proof.
  intros Hr Hs.
  assert (P : 0 < radar_ratio target_range target_rcs)
    by now apply radar_ratio_pos.
  assert (K : forall k : R, 0 < k ->
            calculate_snr_from_range target_range (k * target_rcs)
            = Ok (Finite (10 * log10 (radar_ratio target_range target_rcs)
                          + 10 * log10 k))).
  { intros k Hk.
    rewrite snr_from_range_finite
      by (try apply Rmult_lt_0_compat; assumption).
    rewrite radar_ratio_scale_rcs, log10_mult by assumption.
    do 2 f_equal. ring. }
  exists (10 * log10 (radar_ratio target_range target_rcs)).
  repeat split.
  - now apply snr_from_range_finite.
  - exact K.
  - rewrite K by lra. rewrite log10_10. do 2 f_equal. ring.
Qed.

Lemma snr_from_range_scale_rcs_example :
  exists snr_db : R,
    calculate_snr_from_range 5000 1 = Ok (Finite snr_db)
    /\ calculate_snr_from_range 5000 (10 * 1) = Ok (Finite (snr_db + 10)).
Proof.
  destruct (snr_from_range_scale_rcs 5000 1) as (s & H1 & _ & H2);
    [lra | lra |].
  exists s. split; assumption.
Defined.

(** X10.  Over real arithmetic, at a fixed range other than [0], the SNR is
    strictly increasing in the cross-section over positive cross-sections.
    Rounding is not modelled: in binary64 two adjacent cross-sections can
    give the same SNR. *)
Theorem snr_from_range_increasing_in_rcs (target_range rcs1 rcs2 : R) :
  target_range <> 0 -> 0 < rcs1 -> rcs1 < rcs2 ->
  exists snr1 snr2 : R,
    calculate_snr_from_range target_range rcs1 = Ok (Finite snr1)
    /\ calculate_snr_from_range target_range rcs2 = Ok (Finite snr2)
    /\ snr1 < snr2.
Proof.
  intros Hr H1 H12.
  exists (10 * log10 (radar_ratio target_range rcs1)),
         (10 * log10 (radar_ratio target_range rcs2)).
  rewrite !snr_from_range_finite by (assumption || lra).
  repeat split.
  apply Rmult_lt_compat_l; [lra |].
  apply log10_increasing; [now apply radar_ratio_pos |].
  unfold radar_ratio, Rdiv.
  apply Rmult_lt_compat_r.
  - apply Rinv_0_lt_compat. now apply radar_denominator_pos.
  - apply Rmult_lt_compat_l; [| assumption].
    apply Rmult_lt_0_compat; [unfold TRANSMIT_POWER; lra |].
    apply pow_lt, wavelength_value_pos.
Qed.

Lemma snr_from_range_increasing_in_rcs_example :
  exists snr1 snr2 : R,
    calculate_snr_from_range 5000 1 = Ok (Finite snr1)
    /\ calculate_snr_from_range 5000 10 = Ok (Finite snr2)
    /\ snr1 < snr2.
Proof. apply (snr_from_range_increasing_in_rcs 5000 1 10); lra. Defined.

(** X11.  Range against cross-section, over real arithmetic: for a positive
    range and cross-section and [k > 0], a target [k] times as far with
    [k ^ 4] times the cross-section gives the same finite SNR.  Rounding is
    not modelled: in binary64 the two values can differ in the last
    digit. *)
Theorem snr_from_range_range_rcs_tradeoff (k target_range target_rcs : R) :
  0 < k -> 0 < target_range -> 0 < target_rcs ->
  exists snr_db : R,
    calculate_snr_from_range target_range target_rcs = Ok (Finite snr_db)
    /\ calculate_snr_from_range (k * target_range) (k ^ 4 * target_rcs)
       = Ok (Finite snr_db).
Proof.
  intros Hk Hr Hs.
  exists (10 * log10 (radar_ratio target_range target_rcs)).
  assert (Hk4 : 0 < k ^ 4) by now apply pow_lt.
  rewrite !snr_from_range_finite
    by (try apply Rmult_integral_contrapositive;
        try apply Rmult_lt_0_compat; (assumption || lra)).
  split; [reflexivity |].
  rewrite radar_ratio_scale_range, radar_ratio_scale_rcs by lra.
  replace (k ^ 4 * radar_ratio target_range target_rcs / k ^ 4)
    with (radar_ratio target_range target_rcs) by (field; lra).
  reflexivity.
Qed.

Lemma snr_from_range_range_rcs_tradeoff_example :
  exists snr_db : R,
    calculate_snr_from_range 5000 10 = Ok (Finite snr_db)
    /\ calculate_snr_from_range (2 * 5000) (2 ^ 4 * 10) = Ok (Finite snr_db).
Proof. apply (snr_from_range_range_rcs_tradeoff 2 5000 10); lra. Defined.

(** X12.  Over real arithmetic the link budget is additive in decibels: for
    a positive range and cross-section the SNR is the SNR at range 1 and
    cross-section 1, plus [10 * log10] of the cross-section, minus
    [40 * log10] of the range.  Rounding is not modelled: in binary64 the
    two sides can differ in the last digit. *)
Theorem snr_from_range_link_budget (target_range target_rcs : R) :
  0 < target_range -> 0 < target_rcs ->
  exists snr_unit : R,
    calculate_snr_from_range 1 1 = Ok (Finite snr_unit)
    /\ calculate_snr_from_range target_range target_rcs
       = Ok (Finite (snr_unit + 10 * log10 target_rcs
                     - 40 * log10 target_range)).
Proof.
  intros Hr Hs.
  exists (10 * log10 (radar_ratio 1 1)).
  rewrite !snr_from_range_finite by lra.
  split; [reflexivity |].
  assert (P : 0 < radar_ratio 1 1) by (apply radar_ratio_pos; lra).
  replace (radar_ratio target_range target_rcs)
    with (target_rcs * radar_ratio 1 1 / target_range ^ 4).
  - assert (H4 : 0 < target_range ^ 4) by now apply pow_lt.
    assert (Hm : 0 < target_rcs * radar_ratio 1 1)
      by now apply Rmult_lt_0_compat.
    rewrite log10_div by assumption.
    rewrite log10_mult, log10_pow4 by assumption.
    do 2 f_equal. ring.
  - rewrite <- radar_ratio_scale_rcs, <- radar_ratio_scale_range by lra.
    now rewrite !Rmult_1_r.
Qed.

Lemma snr_from_range_link_budget_example :
  exists snr_unit : R,
    calculate_snr_from_range 1 1 = Ok (Finite snr_unit)
    /\ calculate_snr_from_range 5000 10
       = Ok (Finite (snr_unit + 10 * log10 10 - 40 * log10 5000)).
Proof. apply (snr_from_range_link_budget 5000 10); lra. Defined.

(** ** The thermal noise floor *)

Lemma log10_inv_pow10 (n : nat) : log10 (/ 10 ^ n) = - INR n.
Proof.
  assert (H10 : 0 < 10 ^ n) by (apply pow_lt; lra).
  rewrite log10_inv by assumption.
  unfold log10. rewrite ln_pow by lra.
  pose proof ln10_pos. field. lra.
Qed.

Lemma sqrt10_bounds : 5 / 2 < sqrt 10 < 4.
Proof.
  split.
  - rewrite <- (sqrt_square (5 / 2)) at 1 by lra.
    apply sqrt_lt_1_alt. lra.
  - apply Rlt_le_trans with (sqrt (4 * 4)).
    + apply sqrt_lt_1_alt. lra.
    + rewrite sqrt_square by lra. lra.
Qed.

Lemma noise_power_value_bounds : / 10 ^ 14 < noise_power_value < / 10 ^ 13.
Proof.
  unfold noise_power_value, NOISE_FIGURE_DB.
  replace (5 / 10) with (/ 2) by field.
  rewrite Rpower_sqrt by lra.
  pose proof sqrt10_bounds as [Hlo Hhi].
  unfold BOLTZMANN_CONSTANT, SYSTEM_TEMPERATURE, PULSE_WIDTH.
  split; lra.
Qed.

(** X13.  The thermal noise power the module computes lies between
    [1e-14] and [1e-13] watt, so in decibels it is a finite negative
    number between -140 and -130 dBW. *)
Theorem thermal_noise_floor_dbw :
  exists N dbw : R,
    calculate_thermal_noise_power = Ok N
    /\ (n <- calculate_thermal_noise_power ;; linear_to_db n)
       = Ok (Finite dbw)
    /\ / 10 ^ 14 < N < / 10 ^ 13
    /\ -140 < dbw < -130.
Proof.
  pose proof noise_power_value_bounds as [Hlo Hhi].
  assert (H14 : 0 < / 10 ^ 14) by (apply Rinv_0_lt_compat, pow_lt; lra).
  exists noise_power_value, (10 * log10 noise_power_value).
  rewrite thermal_noise_power_eq. cbn [bind].
  rewrite linear_to_db_pos by lra.
  repeat split; try assumption.
  - pose proof (log10_increasing _ _ H14 Hlo) as H.
    rewrite log10_inv_pow10 in H. simpl INR in H. lra.
  - assert (HN : 0 < noise_power_value) by lra.
    pose proof (log10_increasing _ _ HN Hhi) as H.
    rewrite log10_inv_pow10 in H. simpl INR in H. lra.
Qed.

(** ** The SNR sweep *)

(** X14.  [SNR_VALUES_DB] holds 15 values, the even integers from -10 up
    to 18 in increasing order; the stop value 20 is not one of them. *)
Theorem SNR_VALUES_DB_content :
  SNR_VALUES_DB
  = [-10; -8; -6; -4; -2; 0; 2; 4; 6; 8; 10; 12; 14; 16; 18]%Z
  /\ List.length SNR_VALUES_DB = 15%nat
  /\ ~ In 20%Z SNR_VALUES_DB
  /\ (forall x : Z,
        In x SNR_VALUES_DB <-> (-10 <= x < 20 /\ Z.even x = true)%Z).
Proof.
  assert (E : SNR_VALUES_DB
              = [-10; -8; -6; -4; -2; 0; 2; 4; 6; 8; 10; 12; 14; 16; 18]%Z)
    by reflexivity.
  split; [exact E |]. rewrite E. split; [reflexivity |]. split.
  - simpl. intros H. repeat (destruct H as [H | H]; [discriminate H |]).
    exact H.
  - intros x. split.
    + simpl. intros H.
      repeat (destruct H as [<- | H]; [split; [lia | reflexivity] |]).
      contradiction.
    + intros [Hx He].
      assert (Hk : exists k : Z, x = (2 * k)%Z).
      { apply Z.even_spec in He. destruct He as [k ->]. now exists k. }
      destruct Hk as [k ->].
      assert (Hr : (-5 <= k <= 9)%Z) by lia.
      assert (C : (k = -5 \/ k = -4 \/ k = -3 \/ k = -2 \/ k = -1 \/ k = 0
                   \/ k = 1 \/ k = 2 \/ k = 3 \/ k = 4 \/ k = 5 \/ k = 6
                   \/ k = 7 \/ k = 8 \/ k = 9)%Z) by lia.
      simpl.
      repeat (destruct C as [-> | C]; [tauto |]). subst k. tauto.
Qed.

(** ** The configuration summary *)

Lemma py_truediv_value (x y q : R) : y <> 0 -> x = q * y -> py_truediv x y = Ok q.
Proof.
  intros Hy ->. rewrite py_truediv_ok by assumption. f_equal. now field.
Qed.

(** What the 22 [print] calls of [print_config] write, after whatever was
    printed before: carrier 10 GHz, pulse 1 us, transmit power 1 kW,
    sampling 100 GHz, ranges 15 km and 5 km, wavelength 3 cm, range
    resolution 150 m, unambiguous range 150 km, the noise floor and the SNR
    at the default range. *)
Lemma print_config_output (out : list line) :
  print_config out
  = (out ++
     [ [Lit (py_str_repeat "=" 70)];
       [Lit "RADAR SYSTEM CONFIGURATION"];
       [Lit (py_str_repeat "=" 70)];
       [Lit (newline ++ "TRANSMITTER:")];
       [Lit "  carrier frequency: "; Fixed 1 (Finite 10); Lit " GHz"];
       [Lit "  pulse width: "; Fixed 1 (Finite 1); Lit " μs"];
       [Lit "  PRF: "; Show 1000; Lit " Hz"];
       [Lit "  transmit power: "; Fixed 1 (Finite 1); Lit " kW"];
       [Lit (newline ++ "RECEIVER:")];
       [Lit "  sampling frequency: "; Fixed 1 (Finite 100); Lit " GHz"];
       [Lit "  noise figure: "; Show 5; Lit " dB"];
       [Lit "  thermal noise power: ";
        Fixed 1 (Finite (10 * log10 noise_power_value)); Lit " dBW"];
       [Lit (newline ++ "SCENARIO:")];
       [Lit "  max range: "; Fixed 1 (Finite 15); Lit " km"];
       [Lit "  default target range: "; Fixed 1 (Finite 5); Lit " km"];
       [Lit "  default RCS: "; Show 10; Lit " m²"];
       [Lit (newline ++ "PERFORMANCE:")];
       [Lit "  wavelength: "; Fixed 2 (Finite 3); Lit " cm"];
       [Lit "  range resolution: "; Fixed 1 (Finite 150); Lit " m"];
       [Lit "  max unambiguous range: "; Fixed 1 (Finite 150); Lit " km"];
       [Lit "  SNR at default range: ";
        Fixed 1 (Finite (10 * log10 (radar_ratio 5000 10))); Lit " dB"];
       [Lit (py_str_repeat "=" 70)] ],
     Ok tt).
Proof.
  assert (H1 : py_truediv CARRIER_FREQUENCY 1e9 = Ok 10)
    by (apply py_truediv_value; unfold CARRIER_FREQUENCY; lra).
  assert (H2 : py_truediv TRANSMIT_POWER 1e3 = Ok 1)
    by (apply py_truediv_value; unfold TRANSMIT_POWER; lra).
  assert (H3 : py_truediv SAMPLING_FREQUENCY 1e9 = Ok 100)
    by (apply py_truediv_value; unfold SAMPLING_FREQUENCY; lra).
  assert (H4 : py_truediv MAX_RANGE 1e3 = Ok 15)
    by (apply py_truediv_value; unfold MAX_RANGE; lra).
  assert (H5 : py_truediv DEFAULT_TARGET_RANGE 1e3 = Ok 5)
    by (apply py_truediv_value; unfold DEFAULT_TARGET_RANGE; lra).
  assert (H6 : py_truediv SPEED_OF_LIGHT CARRIER_FREQUENCY = Ok (3 / 100))
    by (apply py_truediv_value; unfold SPEED_OF_LIGHT, CARRIER_FREQUENCY; lra).
  assert (H7 : py_truediv (SPEED_OF_LIGHT * PULSE_WIDTH) 2 = Ok 150)
    by (apply py_truediv_value; unfold SPEED_OF_LIGHT, PULSE_WIDTH; lra).
  assert (H8 : py_truediv SPEED_OF_LIGHT (2 * PRF) = Ok 150000)
    by (apply py_truediv_value; unfold SPEED_OF_LIGHT, PRF; lra).
  assert (H9 : py_truediv 150000 1e3 = Ok 150)
    by (apply py_truediv_value; lra).
  assert (HN : linear_to_db noise_power_value
               = Ok (Finite (10 * log10 noise_power_value)))
    by (apply linear_to_db_pos, noise_power_value_pos).
  assert (HS : calculate_snr_from_range DEFAULT_TARGET_RANGE DEFAULT_RCS
               = Ok (Finite (10 * log10 (radar_ratio 5000 10))))
    by (unfold DEFAULT_TARGET_RANGE, DEFAULT_RCS;
        apply snr_from_range_finite; lra).
  assert (HP : PULSE_WIDTH * 1e6 = 1) by (unfold PULSE_WIDTH; lra).
  assert (HW : 3 / 100 * 100 = 3) by lra.
  unfold print_config, io_bind, eval, print.
  rewrite H1, H2, H3, thermal_noise_power_eq, HN, H4, H5, H6, H7, H8, H9, HS.
  rewrite HP, HW.
  unfold PRF, NOISE_FIGURE_DB, DEFAULT_RCS.
  repeat rewrite <- app_assoc. reflexivity.
Qed.


(** ** The scenario against the pulse timing and the noise *)

(** X16.  Every range of the scenario, from [MIN_RANGE] to [MAX_RANGE],
    has a positive two-way delay shorter than the pulse repetition interval
    [PRI]; the delay is shorter than the pulse itself exactly for ranges
    under 150 m. *)
Theorem scenario_delay_within_PRI (range_m : R) :
  MIN_RANGE <= range_m <= MAX_RANGE ->
  exists delay_s : R,
    range_to_time_delay range_m = Ok delay_s
    /\ 0 < delay_s < PRI
    /\ (delay_s < PULSE_WIDTH <-> range_m < 150).
Proof.
  unfold MIN_RANGE, MAX_RANGE. intros [Hlo Hhi].
  exists (2 * range_m / SPEED_OF_LIGHT).
  rewrite range_to_time_delay_eq.
  unfold PRI, PRF, PULSE_WIDTH, SPEED_OF_LIGHT.
  repeat split; try lra; intros H; lra.
Qed.

Lemma scenario_delay_within_PRI_example :
  exists delay_s : R,
    range_to_time_delay 5000 = Ok delay_s
    /\ 0 < delay_s < PRI
    /\ (delay_s < PULSE_WIDTH <-> 5000 < 150).
Proof.
  apply (scenario_delay_within_PRI 5000). unfold MIN_RANGE, MAX_RANGE. lra.
Defined.

Lemma div_lt_1 (a b : R) : 0 < b -> a < b -> a / b < 1.
Proof.
  intros Hb Hab. rewrite <- (Rinv_r b) by lra.
  apply Rmult_lt_compat_r; [now apply Rinv_0_lt_compat | assumption].
Qed.

Lemma div_gt_1 (a b : R) : 0 < b -> b < a -> 1 < a / b.
Proof.
  intros Hb Hab. rewrite <- (Rinv_r b) by lra.
  apply Rmult_lt_compat_r; [now apply Rinv_0_lt_compat | assumption].
Qed.

Lemma four_pi_cubed_bounds : 1728 < (4 * PI) ^ 3 <= 4096.
Proof.
  pose proof PI2_3_2 as Hlo. pose proof PI_4 as Hhi.
  assert (H12 : 12 < 4 * PI) by lra.
  assert (H16 : 4 * PI <= 16) by lra.
  replace ((4 * PI) ^ 3) with ((4 * PI) * ((4 * PI) * (4 * PI))) by ring.
  assert (Hsq : 144 < (4 * PI) * (4 * PI) <= 256) by nra.
  split; nra.
Qed.

Lemma radar_ratio_far (target_range target_rcs : R) :
  1000 <= target_range -> 0 < target_rcs <= 10 ->
  radar_ratio target_range target_rcs < 1.
Proof.
  intros Hr [Hs0 Hs].
  pose proof four_pi_cubed_bounds as [Hp _].
  pose proof noise_power_value_bounds as [Hn _].
  assert (H14 : / 10 ^ 14 = 1e-14) by lra.
  assert (Hr2 : 1000000 <= target_range * target_range) by nra.
  assert (Hr4 : 1000000000000 <= target_range ^ 4).
  { replace (target_range ^ 4)
      with ((target_range * target_range) * (target_range * target_range))
      by ring. nra. }
  assert (Hd : 17 < (4 * PI) ^ 3 * target_range ^ 4 * noise_power_value).
  { assert (Ha : 1728000000000000 < (4 * PI) ^ 3 * target_range ^ 4) by nra.
    nra. }
  unfold radar_ratio.
  apply div_lt_1; [lra |].
  unfold TRANSMIT_POWER, wavelength_value, SPEED_OF_LIGHT, CARRIER_FREQUENCY.
  lra.
Qed.

Lemma radar_ratio_near (target_range target_rcs : R) :
  0 < target_range <= 100 -> 1 <= target_rcs ->
  1 < radar_ratio target_range target_rcs.
Proof.
  intros [Hr0 Hr] Hs.
  pose proof four_pi_cubed_bounds as [Hp0 Hp].
  pose proof noise_power_value_bounds as [_ Hn].
  pose proof noise_power_value_pos as Hn0.
  assert (H13 : / 10 ^ 13 = 1e-13) by lra.
  assert (Hr2 : 0 < target_range * target_range <= 10000) by nra.
  assert (Hr4 : 0 < target_range ^ 4 <= 100000000).
  { replace (target_range ^ 4)
      with ((target_range * target_range) * (target_range * target_range))
      by ring. nra. }
  assert (Hd0 : 0 < (4 * PI) ^ 3 * target_range ^ 4 * noise_power_value)
    by (apply radar_denominator_pos; lra).
  assert (Hd : (4 * PI) ^ 3 * target_range ^ 4 * noise_power_value < 1 / 20).
  { assert (Ha : 0 < (4 * PI) ^ 3 * target_range ^ 4 <= 409600000000) by nra.
    nra. }
  unfold radar_ratio.
  apply div_gt_1; [lra |].
  unfold TRANSMIT_POWER, wavelength_value, SPEED_OF_LIGHT, CARRIER_FREQUENCY.
  lra.
Qed.

(** X17.  Where the echo sinks under the noise: for every range of at
    least 1000 m and cross-section of at most 10 m^2 the SNR is a finite
    negative number of decibels (the default scenario, 5000 m and 10 m^2,
    is one of them); for every range of at most 100 m and cross-section of
    at least 1 m^2 it is positive. *)
Theorem snr_from_range_sign (target_range target_rcs : R) :
  (1000 <= target_range -> 0 < target_rcs <= 10 ->
   exists snr_db : R,
     calculate_snr_from_range target_range target_rcs = Ok (Finite snr_db)
     /\ snr_db < 0)
  /\ (0 < target_range <= 100 -> 1 <= target_rcs ->
      exists snr_db : R,
        calculate_snr_from_range target_range target_rcs = Ok (Finite snr_db)
        /\ 0 < snr_db).
Proof.
  split.
  - intros Hr Hs.
    exists (10 * log10 (radar_ratio target_range target_rcs)).
    split; [apply snr_from_range_finite; lra |].
    assert (P : 0 < radar_ratio target_range target_rcs)
      by (apply radar_ratio_pos; lra).
    pose proof (log10_increasing _ _ P (radar_ratio_far _ _ Hr Hs)) as H.
    rewrite log10_1 in H. lra.
  - intros Hr Hs.
    exists (10 * log10 (radar_ratio target_range target_rcs)).
    split; [apply snr_from_range_finite; lra |].
    pose proof (log10_increasing _ _ Rlt_0_1 (radar_ratio_near _ _ Hr Hs)) as H.
    rewrite log10_1 in H. lra.
Qed.

Lemma snr_from_range_sign_default :
  exists snr_db : R,
    calculate_snr_from_range DEFAULT_TARGET_RANGE DEFAULT_RCS
    = Ok (Finite snr_db)
    /\ snr_db < 0.
Proof.
  apply (snr_from_range_sign DEFAULT_TARGET_RANGE DEFAULT_RCS);
    unfold DEFAULT_TARGET_RANGE, DEFAULT_RCS; lra.
Defined.
